(** * Product Review Sentiment Scraper: aggregation, scrape handler, tooltip,
      and the backend pipeline components

    The dashboard ([frontend/app/page.js]) is embedded from its source.  The
    backend pipeline (resolver, review source client, scorer, persistence
    sink) is not part of the available sources; its components are modelled
    from the specification and marked as such. *)

From Stdlib Require Import ZArith QArith Qcanon Lia Ascii.
From stdpp Require Import base tactics option list strings gmap fin_maps pretty.

Local Open Scope Z_scope.
Local Open Scope string_scope.
Local Open Scope list_scope.

(** ** Frontend data model *)

Module Frontend.

(** One element of [result.data], as the table of [page.js] reads it.  The
    label is whatever string the payload carries; JavaScript does not
    restrict it to the three expected values. *)
Record Review := {
  product_name : string;
  review_text : string;
  rating : Qc;
  sentiment_label : string;
  sentiment_score : Qc
}.

(** The three labels of the data model. *)
Definition labels : list string := ["Positive"; "Negative"; "Neutral"].

(** A record whose label is one of the three labels. *)
Definition is_Review (r : Review) : Prop := sentiment_label r ∈ labels.

#[global] Instance is_Review_dec r : Decision (is_Review r).
Proof. unfold is_Review. apply _. Defined.

(** *** [sentimentCounts] (page.js, lines 34-45)

    The accumulator is a plain JavaScript object used as a map from label to
    count.  Only own properties are modelled: a label that names an inherited
    member of [Object.prototype] is outside the data model of a Review. *)

(** [x || 0] on a property read: [undefined] and [0] are both falsy. *)
Definition or_zero (v : option Z) : Z :=
  match v with
  | Some n => if Z.eqb n 0 then 0 else n
  | None => 0
  end.

(** The literal [{ Positive: 0, Negative: 0, Neutral: 0 }]. *)
Definition zero_counts : gmap string Z :=
  <["Positive" := 0]> (<["Negative" := 0]> (<["Neutral" := 0]> ∅)).

(** The reducer:
    [acc[review.sentiment_label] = (acc[review.sentiment_label] || 0) + 1]. *)
Definition count_review (acc : gmap string Z) (review : Review) : gmap string Z :=
  <[sentiment_label review := or_zero (acc !! sentiment_label review) + 1]> acc.

Definition sentimentCounts (reviews : list Review) : gmap string Z :=
  if decide (length reviews = 0%nat) then zero_counts
  else fold_left count_review reviews zero_counts.

(** Number of reviews carrying label [k]. *)
Definition matching (k : string) (reviews : list Review) : nat :=
  length (filter (λ r, sentiment_label r = k) reviews).

(** *** Component state and [handleScrape] (page.js, lines 28-32, 47-80) *)

(** [productUrl] is kept as its UTF-16 code units, which is what [trim]
    inspects. *)
Definition code_unit := N.

(** WhiteSpace and LineTerminator code points of ECMAScript, the characters
    [String.prototype.trim] strips. *)
Definition is_white_space (c : code_unit) : bool :=
  bool_decide (c ∈ [9; 10; 11; 12; 13; 32; 160; 5760; 8232; 8233; 8239;
                    8287; 12288; 65279]%N)
  || ((8192 <=? c)%N && (c <=? 8202)%N).

Fixpoint trimStart (s : list code_unit) : list code_unit :=
  match s with
  | c :: rest => if is_white_space c then trimStart rest else s
  | [] => []
  end.

Definition trimEnd (s : list code_unit) : list code_unit :=
  rev (trimStart (rev s)).

Definition trim (s : list code_unit) : list code_unit :=
  trimEnd (trimStart s).

(** [!str]: the empty string is the only falsy string. *)
Definition not_string (s : list code_unit) : bool :=
  match s with [] => true | _ :: _ => false end.

(** The five [useState] cells of [HomePage]. *)
Record state := {
  productUrl : list code_unit;
  reviews : list Review;
  isLoading : bool;
  error : option string;
  sheetUrl : string
}.

Definition setReviews (v : list Review) (s : state) : state :=
  {| productUrl := productUrl s; reviews := v; isLoading := isLoading s;
     error := error s; sheetUrl := sheetUrl s |}.

Definition setIsLoading (v : bool) (s : state) : state :=
  {| productUrl := productUrl s; reviews := reviews s; isLoading := v;
     error := error s; sheetUrl := sheetUrl s |}.

Definition setError (v : option string) (s : state) : state :=
  {| productUrl := productUrl s; reviews := reviews s;
     isLoading := isLoading s; error := v; sheetUrl := sheetUrl s |}.

Definition setSheetUrl (v : string) (s : state) : state :=
  {| productUrl := productUrl s; reviews := reviews s;
     isLoading := isLoading s; error := error s; sheetUrl := v |}.

(** [x || d] on a property that is a string or absent: [undefined] and the
    empty string are falsy. *)
Definition or_else (v : option string) (d : string) : string :=
  match v with
  | Some EmptyString => d
  | Some s => s
  | None => d
  end.

(** A value caught by [catch (e)]; only [e.message] is read. *)
Record thrown := { message : option string }.

(** [new Error(msg)]. *)
Definition Error (msg : string) : thrown := {| message := Some msg |}.

(** A JSON value as line 66 uses [result.detail]: tested by [||], then
    converted to a string by [new Error].  A string is falsy when empty.
    [JOther] stands for every other JSON value, given by whether it is
    truthy ([null], [false] and [0] are not; arrays and objects are) and by
    what converting it to a string yields: the text (an array of objects, as
    FastAPI sends for a validation error, gives "[object Object]"; an empty
    array gives the empty string), or the TypeError raised when the value
    cannot be converted. *)
Inductive json_value :=
| JString (s : string)
| JOther (truthy : bool) (text : thrown + string).

(** [v || d], with [d] a string. *)
Definition or_string (v : option json_value) (d : string) : json_value :=
  match v with
  | Some (JString EmptyString) => JString d
  | Some (JString s) => JString s
  | Some (JOther true text) => JOther true text
  | Some (JOther false _) => JString d
  | None => JString d
  end.

(** What [throw new Error(v)] throws: the new error, whose message is [v]
    converted to a string, or the TypeError of that conversion. *)
Definition throw_new_Error (v : json_value) : thrown :=
  match v with
  | JString s => Error s
  | JOther _ (inr text) => Error text
  | JOther _ (inl e) => e
  end.

(** FastAPI's [detail] for a request that fails validation: an array of
    objects. *)
Definition validation_detail : json_value := JOther true (inr "[object Object]").

(** What [await response.json()] evaluates to.  Reading a property of [null]
    raises a TypeError, whose message is the engine's; every other JSON value
    is covered by [BodyObject] (a missing property reads as [undefined]).
    [detail] is any JSON value; [sheet_url] is a string when present, [data]
    an array. *)
Inductive body :=
| BodyNull (type_error : thrown)
| BodyObject (detail : option json_value) (data : option (list Review))
    (sheet_url : option string).

(** What the request of one invocation does: [fetch] rejects, or
    [response.json()] rejects, or both resolve. *)
Inductive fetch_outcome :=
| FetchThrows (e : thrown)
| JsonThrows (e : thrown)
| Response (ok : bool) (status : N) (result : body).

Definition no_reviews_message : string :=
  "No reviews were returned. The product might have no reviews, or scraper selectors need an update.".

(** The [try] block, lines 58-72: either a value is thrown (always before any
    setter has run) or the setters of lines 68-72 are applied. *)
Definition try_block (o : fetch_outcome) (s : state) : thrown + state :=
  match o with
  | FetchThrows e => inl e
  | JsonThrows e => inl e
  | Response ok status result =>
      if negb ok then
        match result with
        | BodyNull e => inl e
        | BodyObject detail _ _ =>
            inl (throw_new_Error
                   (or_string detail ("HTTP error! Status: " +:+ pretty status)))
        end
      else
        match result with
        | BodyNull e => inl e
        | BodyObject _ data sheet_url =>
            let s := setReviews (default [] data) s in
            let s := setSheetUrl (or_else sheet_url "") s in
            match data with
            | None | Some [] => inr (setError (Some no_reviews_message) s)
            | Some (_ :: _) => inr s
            end
        end
  end.

(** One invocation: the state rendered while the request is in flight (none
    when no request is issued) and the state once the handler has returned. *)
Record run := { at_request : option state; final : state }.

Definition handleScrape (o : fetch_outcome) (s : state) : run :=
  if not_string (trim (productUrl s)) then
    {| at_request := None;
       final := setError (Some "Please enter a product URL.") s |}
  else
    let s1 := setSheetUrl "" (setReviews [] (setError None (setIsLoading true s))) in
    let s2 :=
      match try_block o s1 with
      | inr s' => s'
      | inl e =>
          setReviews []
            (setError (Some (or_else (message e) "An unexpected error occurred.")) s1)
      end in
    {| at_request := Some s1; final := setIsLoading false s2 |}.

(** The request failed: a value was thrown, or the response is not ok. *)
Definition request_failed (o : fetch_outcome) : bool :=
  match o with
  | FetchThrows _ | JsonThrows _ => true
  | Response _ _ (BodyNull _) => true
  | Response ok _ (BodyObject _ _ _) => negb ok
  end.

(** *** Tooltip percentage (page.js, lines 157-161)

    IEEE doubles, their division and product and [toFixed] are kept
    abstract.  Division is checked: it yields no value when the divisor is
    zero, so that a run which divides by zero is visible in the result. *)
Section Tooltip.
Context {number : Type}.
Variable of_int : Z → number.
Variables div mul : number → number → number.
Variable toFixed : number → nat → string.

Definition checked_div (value : Z) (total : nat) : option number :=
  match total with
  | O => None
  | S _ => Some (div (of_int value) (of_int (Z.of_nat total)))
  end.

(** The two branches of the conditional have different types: the string
    of [toFixed(1)] or the number [0]. *)
Inductive percentage_value :=
| PercentFixed (digits : string)
| PercentZero.

(** [totalReviews > 0 ? ((value / totalReviews) * 100).toFixed(1) : 0],
    with [totalReviews = reviews.length]. *)
Definition percentage (value : Z) (totalReviews : nat)
  : option percentage_value :=
  if (0 <? Z.of_nat totalReviews)%Z then
    q ← checked_div value totalReviews;
    Some (PercentFixed (toFixed (mul q (of_int 100)) 1))
  else Some PercentZero.

(** [`${percentage}`] inside the template literal. *)
Definition percentage_text (p : percentage_value) : string :=
  match p with
  | PercentFixed digits => digits
  | PercentZero => "0"
  end.
End Tooltip.

(** *** Sample inputs *)

Definition sample_review (l : string) : Review :=
  {| product_name := "Kettle"; review_text := "fine"; rating := 1%Qc;
     sentiment_label := l; sentiment_score := 0%Qc |}.

(** Code units of an ASCII literal. *)
Definition code_units (s : string) : list code_unit :=
  map N_of_ascii (String.list_ascii_of_string s).

(** The page after a successful scrape, with [url] typed into the input. *)
Definition showing_reviews (url : string) : state :=
  {| productUrl := code_units url;
     reviews := [sample_review "Positive"; sample_review "Negative"];
     isLoading := false;
     error := None;
     sheetUrl := "https://docs.google.com/spreadsheets/d/1AbC" |}.

Definition network_failure : fetch_outcome :=
  FetchThrows (Error "Failed to fetch").

End Frontend.

(** ** Backend pipeline

    None of the backend sources is available.  Each component below is
    written from the specification; nothing in this module is a translation
    of code. *)

Module Backend.

(** Modelled from the spec: the sentiment label of §3. *)
Inductive label := Positive | Negative | Neutral.

(** Modelled from the spec: the error taxonomy of §7. *)
Inductive pipeline_error :=
| InvalidReferenceError
| FetchUnavailableError
| SourceUnavailableError
| PartialSourceFailure
| PersistenceError.

(** Modelled from the spec: the ProductId of §3, an opaque token. *)
Definition ProductId := string.

(** *** Product Identifier Resolver (§4.1) *)

(** Modelled from the spec: a character of a numeric segment. *)
Definition is_digit (c : ascii) : bool :=
  (48 <=? nat_of_ascii c)%nat && (nat_of_ascii c <=? 57)%nat.

(** Modelled from the spec: the suffix marker of scenario 1. *)
Definition suffix_marker : list ascii := String.list_ascii_of_string ".html".

(** Modelled from the spec: the extraction pattern of the Resolver, which is
    backend code absent from the sources.  The spec fixes it only by example
    ("a trailing numeric segment before a known suffix marker", and
    [item-i123456789.html] giving [123456789]); it is taken here to be a
    non-empty run of decimal digits directly followed by [.html], searched
    from the left, the run taken as long as possible.  [run] holds the digits
    read since the last character that is not a digit. *)
Fixpoint scan_token (run url : list ascii) : option (list ascii) :=
  if negb (bool_decide (run = [])) && bool_decide (suffix_marker `prefix_of` url)
  then Some run
  else
    match url with
    | [] => None
    | c :: rest =>
        if is_digit c then scan_token (run ++ [c]) rest
        else scan_token [] rest
    end.

(** Modelled from the spec: the Resolver of §4.1, absent from the sources.
    It returns the identifier on a match and fails with
    [InvalidReferenceError] when no token matches. *)
Definition resolve (url : string) : pipeline_error + ProductId :=
  match scan_token [] (String.list_ascii_of_string url) with
  | Some token => inr (String.string_of_list_ascii token)
  | None => inl InvalidReferenceError
  end.

(** The identifier pattern, stated on its own: [token] is a non-empty run of
    digits of [url] that [.html] follows. *)
Definition embeds (url token : list ascii) : Prop :=
  ∃ pre post,
    url = pre ++ token ++ suffix_marker ++ post ∧
    token ≠ [] ∧ Forall (λ c, is_digit c = true) token.

(** The same, with the run not extensible to the left. *)
Definition embeds_whole (url token : list ascii) : Prop :=
  ∃ pre post,
    url = pre ++ token ++ suffix_marker ++ post ∧
    token ≠ [] ∧ Forall (λ c, is_digit c = true) token ∧
    (∀ c, last pre = Some c → is_digit c = false).

(** *** Sentiment Scorer (§4.4) *)

(** Modelled from the spec: the cutoff 0.1 of §4.4. *)
Definition threshold : Qc := Q2Qc (1 # 10).

(** Modelled from the spec: the thresholding rule of the Scorer, absent from
    the sources: score > +0.1 gives Positive, score < -0.1 gives Negative,
    otherwise Neutral. *)
Definition label_of_score (score : Qc) : label :=
  if decide (threshold < score)%Qc then Positive
  else if decide (score < - threshold)%Qc then Negative
  else Neutral.

Section Scorer.
(** The polarity function over the text; the spec leaves it open. *)
Variable polarity : string → Qc.

(** Modelled from the spec: the Scorer of §4.4, absent from the sources.
    Empty text scores 0; the label follows from the score. *)
Definition score_text (text : string) : Qc * label :=
  let score := if decide (text = "") then 0%Qc else polarity text in
  (score, label_of_score score).
End Scorer.

(** *** Review Source Client (§4.3) *)

(** Modelled from the spec: RawReview and the normalised review of §3 and
    §4.3. *)
Record RawReview := { raw_text : option string; raw_rating : option Qc }.

Record NormalizedReview := { text : string; stars : Qc }.

(** Modelled from the spec: normalisation of one raw review (§4.3).  A missing
    rating becomes 0; a record without text is dropped. *)
Definition normalize (r : RawReview) : option NormalizedReview :=
  match raw_text r with
  | None | Some EmptyString => None
  | Some t => Some {| text := t; stars := default 0%Qc (raw_rating r) |}
  end.

(** Modelled from the spec: one answer of the upstream listing endpoint
    (§6), a page with its continuation signal or a failure. *)
Inductive response :=
| Unavailable
| Page (entries : list RawReview) (has_more : bool).

(** Modelled from the spec: the outcomes of the Review Source Client. *)
Inductive client_result :=
| SourceFailed (e : pipeline_error)
| Retrieved (reviews : list NormalizedReview) (partial : bool).

(** Modelled from the spec: the result of one retrieval, with the number of
    pages asked for and of calls made to the upstream. *)
Record retrieval := {
  outcome : client_result;
  pages_requested : nat;
  calls_made : nat
}.

Section Client.
(** The upstream is any state machine: its answer may depend on its own
    state, on the product and on the page asked for. *)
Context {upstream : Type}.
Variable call : upstream → ProductId → nat → upstream * response.
Variable product : ProductId.
(** The configured page-count cap. *)
Variable max_pages : nat.

(** Modelled from the spec: the page cursor and what was collected so
    far. *)
Record cursor_state := {
  next_page : nat;
  collected : list NormalizedReview;
  source : upstream;
  calls : nat
}.

(** Modelled from the spec: one page call, retried once when it fails
    (§4.3).  The third component counts the calls made. *)
Definition fetch_page (u : upstream) (page : nat) : upstream * response * nat :=
  let '(u1, r1) := call u product page in
  match r1 with
  | Page _ _ => (u1, r1, 1%nat)
  | Unavailable => let '(u2, r2) := call u1 product page in (u2, r2, 2%nat)
  end.

(** Modelled from the spec: the loop ends, [n] pages having been asked for
    in the last turn. *)
Definition finish (st : cursor_state) (o : client_result) (n : nat) : retrieval :=
  {| outcome := o; pages_requested := next_page st - 1 + n; calls_made := calls st |}.

(** Modelled from the spec: one turn of the pagination loop of the Review
    Source Client (§4.3), absent from the sources.  It stops when the cap
    is reached, when a page fails after its retry (fatal on the first page,
    a partial result later), when the page is empty, or when the upstream
    signals that no more pages exist. *)
Definition turn (st : cursor_state) : cursor_state + retrieval :=
  if (max_pages <? next_page st)%nat then
    inr (finish st (Retrieved (collected st) false) 0)
  else
    let '(u, r, n) := fetch_page (source st) (next_page st) in
    let st' := {| next_page := next_page st; collected := collected st;
                  source := u; calls := calls st + n |} in
    match r with
    | Unavailable =>
        if (next_page st =? 1)%nat
        then inr (finish st' (SourceFailed SourceUnavailableError) 1)
        else inr (finish st' (Retrieved (collected st) true) 1)
    | Page [] _ => inr (finish st' (Retrieved (collected st) false) 1)
    | Page entries more =>
        let acc := collected st ++ omap normalize entries in
        if more then
          inl {| next_page := S (next_page st); collected := acc;
                 source := u; calls := calls st + n |}
        else inr (finish st' (Retrieved acc false) 1)
    end.

(** Modelled from the spec: the pagination loop, run for at most [fuel]
    turns. *)
Fixpoint paginate (fuel : nat) (st : cursor_state) : option retrieval :=
  match fuel with
  | O => None
  | S fuel' =>
      match turn st with
      | inr r => Some r
      | inl st' => paginate fuel' st'
      end
  end.

(** Modelled from the spec: the Review Source Client, starting at page 1
    with nothing collected. *)
Definition fetch_reviews (fuel : nat) (u : upstream) : option retrieval :=
  paginate fuel {| next_page := 1; collected := []; source := u; calls := 0 |}.

(** What the loop maintains: the cursor never passes the cap by more than
    one, and at most two calls were made for each page already asked
    for. *)
Definition within_cap (st : cursor_state) : Prop :=
  (1 ≤ next_page st ≤ S max_pages)%nat ∧
  (calls st ≤ 2 * (next_page st - 1))%nat.

(** A retrieval that stayed within the cap. *)
Definition bounded (r : retrieval) : Prop :=
  (pages_requested r ≤ max_pages)%nat ∧
  (calls_made r ≤ 2 * pages_requested r)%nat.
End Client.

(** *** Persistence Sink (§4.6) and response assembly (§4.7) *)

(** Modelled from the spec: the enriched Review of §3. *)
Record Review := {
  product_name : string;
  review_text : string;
  rating : Qc;
  sentiment_label : label;
  sentiment_score : Qc
}.

(** Modelled from the spec: a spreadsheet row in the fixed column layout of
    §4.6. *)
Definition row : Type := string * string * Qc * label * Qc.

(** Modelled from the spec: the row written for a review. *)
Definition to_row (r : Review) : row :=
  (product_name r, review_text r, rating r, sentiment_label r, sentiment_score r).

(** Modelled from the spec: the PipelineResult of §3, with the warnings of
    §7. *)
Record PipelineResult := {
  reviews : list Review;
  sheet_url : string;
  warnings : list pipeline_error
}.

Section Sink.
(** The append capability of the spreadsheet: [append_ok k] tells whether
    the write of the k-th row of the batch (counted from 1) goes through. *)
Variable append_ok : nat → bool.

(** Modelled from the spec: the Persistence Sink of §4.6, absent from the
    sources.  Rows are appended in sequence order; the first write that
    fails ends the batch, and what was written before it stays. *)
Fixpoint append_rows (k : nat) (sheet : list row) (batch : list Review)
  : list row * option nat :=
  match batch with
  | [] => (sheet, None)
  | r :: rest =>
      if append_ok k then append_rows (S k) (sheet ++ [to_row r]) rest
      else (sheet, Some k)
  end.

(** Modelled from the spec: the [Persisting → Done] step of the
    Orchestrator (§4.7, §7), absent from the sources.  A failed write is
    reported as a warning next to the complete data. *)
Definition persist_and_respond (locator : string) (sheet : list row)
    (scored : list Review) : list row * PipelineResult :=
  let '(sheet', failure) := append_rows 1 sheet scored in
  (sheet',
   {| reviews := scored; sheet_url := locator;
      warnings := match failure with
                  | Some _ => [PersistenceError]
                  | None => []
                  end |}).
End Sink.

(** *** Sample input *)

Definition sample_scored (t : string) : Review :=
  {| product_name := "Kettle"; review_text := t; rating := 1%Qc;
     sentiment_label := Neutral; sentiment_score := 0%Qc |}.

End Backend.

(** ** Frontend: chart data, cell styles and what the page shows *)

Module FrontendView.
Import Frontend.

(** *** [getSentimentStyle] (page.js, lines 219-221 and 228-232) *)

Record cell_style := { color : string; fontWeight : option string }.

Definition sentimentCellPositive : cell_style :=
  {| color := "green"; fontWeight := Some "bold" |}.

Definition sentimentCellNegative : cell_style :=
  {| color := "red"; fontWeight := Some "bold" |}.

Definition sentimentCellNeutral : cell_style :=
  {| color := "gray"; fontWeight := None |}.

Definition getSentimentStyle (label : string) : cell_style :=
  if String.eqb label "Positive" then sentimentCellPositive
  else if String.eqb label "Negative" then sentimentCellNegative
  else sentimentCellNeutral.

(** *** The counts object with its property order (page.js, lines 34-45,
    84-89)

    [Object.keys] and [Object.values] list the own properties of an object
    with array-index keys first, in ascending order, and the other keys after
    them in the order they were created.  The object is kept as the list of
    its entries in that order. *)

Definition decimal_digit (c : ascii) : bool :=
  (48 <=? N_of_ascii c)%N && (N_of_ascii c <=? 57)%N.

Fixpoint digits_value (acc : N) (k : string) : option N :=
  match k with
  | EmptyString => Some acc
  | String c rest =>
      if decimal_digit c
      then digits_value (acc * 10 + (N_of_ascii c - 48))%N rest
      else None
  end.

(** The array index a key denotes, if any: a canonical numeral below
    2^32 - 1. *)
Definition array_index (k : string) : option N :=
  match k with
  | EmptyString => None
  | String c rest =>
      if Ascii.eqb c "0" then
        match rest with EmptyString => Some 0%N | _ => None end
      else
        match digits_value 0 k with
        | Some n => if (n <? 4294967295)%N then Some n else None
        | None => None
        end
  end.

(** [obj[k]] on own properties. *)
Fixpoint obj_get (o : list (string * Z)) (k : string) : option Z :=
  match o with
  | [] => None
  | (k', v) :: rest => if String.eqb k' k then Some v else obj_get rest k
  end.

Fixpoint obj_replace (k : string) (v : Z) (o : list (string * Z))
  : list (string * Z) :=
  match o with
  | [] => []
  | (k', v') :: rest =>
      if String.eqb k' k then (k', v) :: rest
      else (k', v') :: obj_replace k v rest
  end.

(** A new array-index key goes before the first entry that is not a smaller
    array index. *)
Fixpoint obj_add_index (n : N) (k : string) (v : Z) (o : list (string * Z))
  : list (string * Z) :=
  match o with
  | [] => [(k, v)]
  | (k', v') :: rest =>
      match array_index k' with
      | Some n' =>
          if (n <? n')%N then (k, v) :: o
          else (k', v') :: obj_add_index n k v rest
      | None => (k, v) :: o
      end
  end.

(** [obj[k] = v]: an existing property keeps its place. *)
Definition obj_set (k : string) (v : Z) (o : list (string * Z))
  : list (string * Z) :=
  match obj_get o k with
  | Some _ => obj_replace k v o
  | None =>
      match array_index k with
      | Some n => obj_add_index n k v o
      | None => o ++ [(k, v)]
      end
  end.

(** The reducer of [sentimentCounts] and the reduction, on the ordered
    object. *)
Definition count_entry (acc : list (string * Z)) (review : Review)
  : list (string * Z) :=
  obj_set (sentiment_label review)
    (or_zero (obj_get acc (sentiment_label review)) + 1) acc.

Definition sentimentCounts_entries (reviews : list Review)
  : list (string * Z) :=
  if decide (length reviews = 0%nat)
  then [("Positive", 0); ("Negative", 0); ("Neutral", 0)]
  else fold_left count_entry reviews
         [("Positive", 0); ("Negative", 0); ("Neutral", 0)].

(** Names every plain object inherits from [Object.prototype]; reading one
    of them on the accumulator does not give [undefined]. *)
Definition prototype_names : list string :=
  ["constructor"; "__defineGetter__"; "__defineSetter__"; "hasOwnProperty";
   "__lookupGetter__"; "__lookupSetter__"; "isPrototypeOf";
   "propertyIsEnumerable"; "toString"; "valueOf"; "__proto__";
   "toLocaleString"].

(** [chartData] (page.js, lines 84-104): the fields that vary and the two
    colour arrays. *)
Record chart_data := {
  labels : list string;
  data : list Z;
  backgroundColor : list string;
  borderColor : list string
}.

Definition chartData (reviews : list Review) : chart_data :=
  {| labels := map fst (sentimentCounts_entries reviews);
     data := map snd (sentimentCounts_entries reviews);
     backgroundColor :=
       ["rgba(75, 192, 192, 0.7)"; "rgba(255, 99, 132, 0.7)";
        "rgba(201, 203, 207, 0.7)"];
     borderColor :=
       ["rgba(75, 192, 192, 1)"; "rgba(255, 99, 132, 1)";
        "rgba(201, 203, 207, 1)"] |}.

(** Sum of the chart values. *)
Definition total (values : list Z) : Z := foldr Z.add 0 values.

(** [totalReviews] (page.js, line 82). *)
Definition totalReviews (s : state) : nat := length (reviews s).

(** *** What [HomePage] renders (page.js, lines 256-315) *)

(** [str && ...] in JSX: the empty string shows nothing. *)
Definition truthy (v : string) : bool :=
  match v with EmptyString => false | String _ _ => true end.

Record view := {
  button_disabled : bool;
  button_text : string;
  loader : bool;
  error_banner : option string;
  sheet_link : option string;
  (** the table and the two charts, over these rows *)
  results : option (list Review);
  no_reviews_hint : bool
}.

Definition render (s : state) : view :=
  {| button_disabled := isLoading s;
     button_text := if isLoading s then "Scraping..." else "Scrape Reviews";
     loader := isLoading s;
     error_banner :=
       match error s with
       | Some m => if truthy m then Some m else None
       | None => None
       end;
     sheet_link :=
       if truthy (sheetUrl s) && negb (isLoading s)
       then Some (sheetUrl s) else None;
     results :=
       if (0 <? length (reviews s))%nat && negb (isLoading s)
       then Some (reviews s) else None;
     no_reviews_hint :=
       (length (reviews s) =? 0)%nat && negb (isLoading s)
       && negb (match error s with Some m => truthy m | None => false end)
       && negb (not_string (productUrl s)) |}.

(** The page before any scrape, with [url] typed into the input. *)
Definition fresh_page (url : string) : state :=
  {| productUrl := code_units url; reviews := []; isLoading := false;
     error := None; sheetUrl := "" |}.

End FrontendView.

(** ** Properties of the aggregation *)

Module FrontendFacts.
Import Frontend.

Lemma or_zero_Some (n : Z) : or_zero (Some n) = n.
Proof. simpl. destruct (Z.eqb_spec n 0); congruence. Qed.

Lemma matching_cons (k : string) (r : Review) (rs : list Review) :
  matching k (r :: rs) =
  if decide (sentiment_label r = k) then S (matching k rs) else matching k rs.
Proof.
  unfold matching. rewrite filter_cons.
  destruct (decide (sentiment_label r = k)); reflexivity.
Qed.

(** The reduction adds to the entry of [k] one per review labelled [k],
    whatever the accumulator it starts from. *)
Lemma fold_count_review (k : string) (reviews : list Review) :
  ∀ (acc : gmap string Z) (n : Z),
    acc !! k = Some n →
    fold_left count_review reviews acc !! k
    = Some (n + Z.of_nat (matching k reviews)).
Proof.
  induction reviews as [|r rs IH]; intros acc n Hk.
  - simpl. rewrite Hk. f_equal. unfold matching. simpl. lia.
  - simpl fold_left. rewrite matching_cons.
    destruct (decide (sentiment_label r = k)) as [Heq|Hne].
    + rewrite (IH _ (n + 1)).
      * f_equal. lia.
      * unfold count_review. rewrite Heq, Hk, or_zero_Some.
        apply lookup_insert_eq.
    + apply IH. unfold count_review.
      rewrite lookup_insert_ne by assumption. exact Hk.
Qed.

Lemma zero_counts_lookup (k : string) :
  k ∈ labels → zero_counts !! k = Some 0.
Proof.
  unfold labels. rewrite !elem_of_cons, elem_of_nil.
  intros [->|[->|[->|[]]]]; reflexivity.
Qed.

(** Every label of the data model is an entry of the result, holding the
    number of reviews with that label. *)
Lemma sentimentCounts_lookup (k : string) (reviews : list Review) :
  k ∈ labels →
  sentimentCounts reviews !! k = Some (Z.of_nat (matching k reviews)).
Proof.
  intros Hk. unfold sentimentCounts.
  destruct (decide (length reviews = 0%nat)) as [Hlen|Hlen].
  - destruct reviews; [|discriminate]. apply zero_counts_lookup, Hk.
  - rewrite (fold_count_review k reviews zero_counts 0).
    + f_equal.
    + apply zero_counts_lookup, Hk.
Qed.

(** Reviews with a label of the data model fall into exactly one of the three
    classes. *)
Lemma matching_partition (reviews : list Review) :
  Forall is_Review reviews →
  (matching "Positive" reviews + matching "Negative" reviews
   + matching "Neutral" reviews = length reviews)%nat.
Proof.
  induction 1 as [|r rs Hr _ IH]; [reflexivity|].
  rewrite !matching_cons. simpl length.
  unfold is_Review, labels in Hr.
  rewrite !elem_of_cons, elem_of_nil in Hr.
  destruct Hr as [Hr|[Hr|[Hr|[]]]]; rewrite Hr;
    repeat case_decide; try congruence; lia.
Qed.

(** C1: for every sequence of Review records the aggregation holds, under each
    of the three labels, the number of reviews with that label (one increment
    per matching review), and the three counts add up to the length of the
    sequence. *)
Theorem sentimentCounts_sum (reviews : list Review) :
  Forall is_Review reviews →
  ∃ p n u : Z,
    sentimentCounts reviews !! "Positive" = Some p ∧
    sentimentCounts reviews !! "Negative" = Some n ∧
    sentimentCounts reviews !! "Neutral" = Some u ∧
    p = Z.of_nat (matching "Positive" reviews) ∧
    n = Z.of_nat (matching "Negative" reviews) ∧
    u = Z.of_nat (matching "Neutral" reviews) ∧
    p + n + u = Z.of_nat (length reviews).
Proof.
  intros Hall.
  exists (Z.of_nat (matching "Positive" reviews)),
    (Z.of_nat (matching "Negative" reviews)),
    (Z.of_nat (matching "Neutral" reviews)).
  repeat split; try (apply sentimentCounts_lookup; unfold labels; set_solver).
  pose proof (matching_partition reviews Hall). lia.
Qed.

Lemma sentimentCounts_sum_witness :
  Forall is_Review
    [sample_review "Positive"; sample_review "Neutral"; sample_review "Positive"] ∧
  ∃ p n u : Z,
    sentimentCounts
      [sample_review "Positive"; sample_review "Neutral"; sample_review "Positive"]
      !! "Positive" = Some p ∧
    sentimentCounts
      [sample_review "Positive"; sample_review "Neutral"; sample_review "Positive"]
      !! "Negative" = Some n ∧
    sentimentCounts
      [sample_review "Positive"; sample_review "Neutral"; sample_review "Positive"]
      !! "Neutral" = Some u ∧
    p = Z.of_nat (matching "Positive"
      [sample_review "Positive"; sample_review "Neutral"; sample_review "Positive"]) ∧
    n = Z.of_nat (matching "Negative"
      [sample_review "Positive"; sample_review "Neutral"; sample_review "Positive"]) ∧
    u = Z.of_nat (matching "Neutral"
      [sample_review "Positive"; sample_review "Neutral"; sample_review "Positive"]) ∧
    p + n + u = Z.of_nat (length
      [sample_review "Positive"; sample_review "Neutral"; sample_review "Positive"]).
Proof.
  assert (H : Forall is_Review
    [sample_review "Positive"; sample_review "Neutral"; sample_review "Positive"]).
  { apply (bool_decide_unpack _). vm_compute. exact I. }
  split; [exact H | exact (sentimentCounts_sum _ H)].
Defined.

(** C2: over the empty sequence the aggregation is exactly
    [{Positive: 0, Negative: 0, Neutral: 0}]. *)
Theorem sentimentCounts_empty :
  sentimentCounts []
  = <["Positive" := 0]> (<["Negative" := 0]> (<["Neutral" := 0]> ∅)).
Proof. reflexivity. Qed.

(** C3: whatever the sequence, the aggregation has an entry for each of
    Positive, Negative and Neutral, and each entry is a non-negative
    integer, zero included. *)
Theorem sentimentCounts_keys (reviews : list Review) :
  (∃ p : Z, sentimentCounts reviews !! "Positive" = Some p ∧ (0 ≤ p)%Z) ∧
  (∃ n : Z, sentimentCounts reviews !! "Negative" = Some n ∧ (0 ≤ n)%Z) ∧
  (∃ u : Z, sentimentCounts reviews !! "Neutral" = Some u ∧ (0 ≤ u)%Z).
Proof.
  repeat split; eexists; (split; [apply sentimentCounts_lookup|lia]);
    unfold labels; set_solver.
Qed.

(** *** The scrape handler *)

Lemma or_else_nonempty (v : option string) (d : string) :
  d ≠ "" → or_else v d ≠ "".
Proof. intros Hd. destruct v as [[|c r]|]; simpl; congruence. Qed.

(** With a URL that is blank after [trim], the handler only sets the error
    message: no request is issued and nothing else is touched. *)
Lemma handleScrape_blank (o : fetch_outcome) (s : state) :
  trim (productUrl s) = [] →
  handleScrape o s =
  {| at_request := None;
     final := setError (Some "Please enter a product URL.") s |}.
Proof. intros Hblank. unfold handleScrape. rewrite Hblank. reflexivity. Qed.

(** Otherwise the request is issued from the cleared state. *)
Lemma handleScrape_request (o : fetch_outcome) (s : state) :
  trim (productUrl s) ≠ [] →
  at_request (handleScrape o s) =
  Some {| productUrl := productUrl s; reviews := []; isLoading := true;
          error := None; sheetUrl := "" |}.
Proof.
  intros Hurl. unfold handleScrape.
  destruct (trim (productUrl s)); [congruence|]. reflexivity.
Qed.

(** A failed request throws inside the [try] block. *)
Lemma try_block_failed (o : fetch_outcome) (s : state) :
  request_failed o = true → ∃ e, try_block o s = inl e.
Proof.
  destruct o as [e|e|ok status [e|detail data sheet]]; simpl; intros Hf;
    eauto.
  - destruct ok; simpl; eauto.
  - destruct ok; simpl in *; [discriminate|eauto].
Qed.

(** C8: every invocation that issues a request (the handler issues one
    whenever the URL is not blank) clears the reviews, the error message and
    the sheet URL before the request is issued, and when the request fails
    (a thrown value or a response that is not ok) the review list is empty
    afterwards, the sheet URL too, and an error message is shown: no review
    of an earlier invocation is left on display. *)
Theorem handleScrape_clears_before_request (o : fetch_outcome) (s : state) :
  trim (productUrl s) ≠ [] →
  (∃ s1 : state,
     at_request (handleScrape o s) = Some s1 ∧
     reviews s1 = [] ∧ error s1 = None ∧ sheetUrl s1 = "") ∧
  (request_failed o = true →
     reviews (final (handleScrape o s)) = [] ∧
     sheetUrl (final (handleScrape o s)) = "" ∧
     ∃ m : string, error (final (handleScrape o s)) = Some m ∧ m ≠ "").
Proof.
  intros Hurl. split.
  - eexists. split; [apply handleScrape_request, Hurl|]. repeat split.
  - intros Hfail. unfold handleScrape.
    destruct (trim (productUrl s)); [congruence|]. simpl not_string. cbv iota.
    match goal with |- context [try_block o ?s1] =>
      destruct (try_block_failed o s1 Hfail) as [e ->] end.
    simpl. repeat split. eexists. split; [reflexivity|].
    apply or_else_nonempty. discriminate.
Qed.

Lemma handleScrape_clears_before_request_witness :
  trim (productUrl (showing_reviews "https://www.daraz.pk/products/item-i123456789.html")) ≠ [] ∧
  reviews (final (handleScrape network_failure
    (showing_reviews "https://www.daraz.pk/products/item-i123456789.html"))) = [].
Proof.
  assert (H : trim (productUrl
    (showing_reviews "https://www.daraz.pk/products/item-i123456789.html")) ≠ []).
  { vm_compute. discriminate. }
  split; [exact H|].
  exact (proj1 (proj2 (handleScrape_clears_before_request network_failure _ H)
                  eq_refl)).
Defined.

(** C9: an ok response whose [data] is missing or empty still ends with the
    error message "No reviews were returned...", while the sheet URL of the
    response is stored. *)
Theorem handleScrape_ok_without_reviews
    (s : state) (status : N) (detail : option json_value)
    (sheet_url : option string) (data : option (list Review)) :
  trim (productUrl s) ≠ [] →
  data = None ∨ data = Some [] →
  request_failed (Response true status (BodyObject detail data sheet_url)) = false ∧
  error (final (handleScrape
    (Response true status (BodyObject detail data sheet_url)) s))
  = Some "No reviews were returned. The product might have no reviews, or scraper selectors need an update." ∧
  sheetUrl (final (handleScrape
    (Response true status (BodyObject detail data sheet_url)) s))
  = or_else sheet_url "" ∧
  reviews (final (handleScrape
    (Response true status (BodyObject detail data sheet_url)) s)) = [].
Proof.
  intros Hurl Hdata. unfold handleScrape.
  destruct (trim (productUrl s)); [congruence|].
  destruct Hdata as [-> | ->]; repeat split.
Qed.

Lemma handleScrape_ok_without_reviews_witness :
  sheetUrl (final (handleScrape
    (Response true 200 (BodyObject None (Some []) (Some "https://docs.google.com/spreadsheets/d/1AbC")))
    (showing_reviews "https://www.daraz.pk/products/item-i123456789.html")))
  = "https://docs.google.com/spreadsheets/d/1AbC" ∧
  error (final (handleScrape
    (Response true 200 (BodyObject None (Some []) (Some "https://docs.google.com/spreadsheets/d/1AbC")))
    (showing_reviews "https://www.daraz.pk/products/item-i123456789.html")))
  = Some "No reviews were returned. The product might have no reviews, or scraper selectors need an update.".
Proof.
  assert (H : trim (productUrl
    (showing_reviews "https://www.daraz.pk/products/item-i123456789.html")) ≠ []).
  { vm_compute. discriminate. }
  pose proof (handleScrape_ok_without_reviews
    (showing_reviews "https://www.daraz.pk/products/item-i123456789.html")
    200 None (Some "https://docs.google.com/spreadsheets/d/1AbC") (Some [])
    H (or_intror eq_refl)) as (_ & He & Hs & _).
  split; [exact Hs | exact He].
Defined.

(** *** The tooltip *)

(** C10: the percentage of the pie tooltip never divides by zero.  With no
    reviews it is the number 0, shown as "0"; otherwise it is the value
    divided by the number of reviews, times 100, passed through
    [toFixed(1)]. *)
Theorem percentage_no_division_by_zero {number : Type}
    (of_int : Z → number) (div mul : number → number → number)
    (toFixed : number → nat → string) (value : Z) (totalReviews : nat) :
  percentage of_int div mul toFixed value totalReviews
  = Some match totalReviews with
         | O => PercentZero
         | S _ =>
             PercentFixed
               (toFixed (mul (div (of_int value) (of_int (Z.of_nat totalReviews)))
                             (of_int 100)) 1%nat)
         end
  ∧ percentage_text <$> percentage of_int div mul toFixed value 0%nat
    = Some "0".
Proof.
  split; [|reflexivity].
  unfold percentage. destruct totalReviews as [|n]; [reflexivity|].
  assert (Hlt : (0 <? Z.of_nat (S n))%Z = true) by (apply Z.ltb_lt; lia).
  rewrite Hlt. reflexivity.
Qed.

End FrontendFacts.

(** ** Properties of the backend components *)

Module BackendFacts.
Import Backend.

(** *** Scorer *)

Lemma threshold_dead_band : (- threshold < threshold)%Qc.
Proof. reflexivity. Qed.

Lemma label_of_score_Positive (score : Qc) :
  label_of_score score = Positive ↔ (threshold < score)%Qc.
Proof.
  unfold label_of_score. repeat case_decide; split; intros; try congruence;
    contradiction.
Qed.

Lemma label_of_score_Negative (score : Qc) :
  label_of_score score = Negative ↔ (score < - threshold)%Qc.
Proof.
  unfold label_of_score. repeat case_decide; split; intros; try congruence;
    try contradiction.
  exfalso. apply (Qclt_not_le _ _ threshold_dead_band).
  apply Qclt_le_weak. eapply Qclt_trans; eassumption.
Qed.

Lemma label_of_score_Neutral (score : Qc) :
  label_of_score score = Neutral ↔
  ¬ (threshold < score)%Qc ∧ ¬ (score < - threshold)%Qc.
Proof.
  unfold label_of_score. repeat case_decide; split; intros; try congruence;
    tauto.
Qed.

(** C4: for any text the label is Positive exactly when the score exceeds
    0.1, Negative exactly when it is below -0.1 and Neutral exactly when it
    is neither; the two strict conditions never hold together, so the three
    cases cover every score without overlap. *)
Theorem score_text_label (polarity : string → Qc) (text : string) :
  ((score_text polarity text).2 = Positive ↔
     (Q2Qc (1 # 10) < (score_text polarity text).1)%Qc) ∧
  ((score_text polarity text).2 = Negative ↔
     ((score_text polarity text).1 < - Q2Qc (1 # 10))%Qc) ∧
  ((score_text polarity text).2 = Neutral ↔
     ¬ (Q2Qc (1 # 10) < (score_text polarity text).1)%Qc ∧
     ¬ ((score_text polarity text).1 < - Q2Qc (1 # 10))%Qc) ∧
  ¬ ((Q2Qc (1 # 10) < (score_text polarity text).1)%Qc ∧
     ((score_text polarity text).1 < - Q2Qc (1 # 10))%Qc).
Proof.
  change (Q2Qc (1 # 10)) with threshold. unfold score_text. simpl.
  split; [apply label_of_score_Positive|].
  split; [apply label_of_score_Negative|].
  split; [apply label_of_score_Neutral|].
  intros [Hp Hn]. apply (Qclt_not_le _ _ threshold_dead_band).
  apply Qclt_le_weak. eapply Qclt_trans; eassumption.
Qed.

(** *** Resolver *)

Lemma scan_token_eq (run url : list ascii) :
  scan_token run url =
  if negb (bool_decide (run = [])) && bool_decide (suffix_marker `prefix_of` url)
  then Some run
  else match url with
       | [] => None
       | c :: rest =>
           if is_digit c then scan_token (run ++ [c]) rest
           else scan_token [] rest
       end.
Proof. destruct url; reflexivity. Qed.

Lemma scan_check_true (run url : list ascii) :
  negb (bool_decide (run = [])) && bool_decide (suffix_marker `prefix_of` url)
  = true ↔ run ≠ [] ∧ suffix_marker `prefix_of` url.
Proof.
  rewrite andb_true_iff, negb_true_iff, bool_decide_eq_false,
    bool_decide_eq_true. reflexivity.
Qed.

(** What the scan returns is a run of digits that the marker follows, and the
    run starts where the digits start. *)
Lemma scan_token_sound (url : list ascii) :
  ∀ run token : list ascii,
    Forall (λ c, is_digit c = true) run →
    scan_token run url = Some token →
    ∃ pre post : list ascii,
      run ++ url = pre ++ token ++ suffix_marker ++ post ∧
      token ≠ [] ∧ Forall (λ c, is_digit c = true) token ∧
      (∀ c, last pre = Some c → is_digit c = false).
Proof.
  induction url as [|c rest IH]; intros run token Hrun Hscan;
    rewrite scan_token_eq in Hscan;
    destruct (negb (bool_decide (run = [])) &&
              bool_decide (suffix_marker `prefix_of` _)) eqn:Hcheck.
  - apply scan_check_true in Hcheck as [_ Hpre].
    apply prefix_nil_inv in Hpre. discriminate.
  - discriminate.
  - apply scan_check_true in Hcheck as [Hne [post Hpost]].
    injection Hscan as <-. exists [], post. rewrite Hpost.
    repeat split; try assumption. intros c' Hc'. discriminate.
  - destruct (is_digit c) eqn:Hc.
    + destruct (IH (run ++ [c]) token) as (pre & post & Heq & Hrest);
        [apply Forall_app; split; [assumption|by constructor]|assumption|].
      exists pre, post. split; [|exact Hrest].
      rewrite <- Heq, <- app_assoc. reflexivity.
    + destruct (IH [] token) as (pre & post & Heq & Hne & Hdig & Hlast);
        [constructor|assumption|].
      exists (run ++ c :: pre), post. cbn [app] in Heq.
      split; [rewrite Heq, <- app_assoc; reflexivity|].
      repeat split; try assumption.
      intros c'. rewrite last_app, last_cons.
      destruct (last pre) as [y|] eqn:Hy; intros [= <-]; [by apply Hlast|done].
Qed.

(** A URL that holds a run of digits followed by the marker makes the scan
    succeed. *)
Lemma scan_token_complete (url : list ascii) :
  ∀ run : list ascii,
    (run ≠ [] ∧ suffix_marker `prefix_of` url) ∨ (∃ token, embeds url token) →
    is_Some (scan_token run url).
Proof.
  induction url as [|c rest IH]; intros run Hcase;
    rewrite scan_token_eq;
    destruct (negb (bool_decide (run = [])) &&
              bool_decide (suffix_marker `prefix_of` _)) eqn:Hcheck;
    try (by eexists).
  - exfalso. destruct Hcase as [Hpre|(token & pre & post & Heq & Hne & _)].
    + apply scan_check_true in Hpre. congruence.
    + symmetry in Heq. apply app_eq_nil in Heq as [_ Heq].
      apply app_eq_nil in Heq as [Heq _]. contradiction.
  - destruct Hcase as [Hpre|(token & pre & post & Heq & Hne & Hdig)].
    { apply scan_check_true in Hpre. congruence. }
    destruct pre as [|p pre].
    + destruct token as [|d token]; [contradiction|].
      rewrite app_nil_l, <- app_comm_cons in Heq. injection Heq as -> ->.
      apply Forall_cons in Hdig as [Hd Hdig]. rewrite Hd.
      apply IH. destruct token as [|d' token].
      * left. split; [by destruct run|]. by eexists.
      * right. exists (d' :: token), [], post. repeat split; done.
    + rewrite <- app_comm_cons in Heq. injection Heq as -> ->.
      assert (Hin : ∃ t, embeds (pre ++ token ++ suffix_marker ++ post) t).
      { exists token, pre, post. repeat split; assumption. }
      destruct (is_digit p); apply IH; right; exact Hin.
Qed.

Lemma resolve_Some (url : string) (id : ProductId) :
  resolve url = inr id →
  scan_token [] (String.list_ascii_of_string url)
  = Some (String.list_ascii_of_string id).
Proof.
  unfold resolve. destruct (scan_token _ _) as [token|]; [|discriminate].
  intros [= <-]. by rewrite String.list_ascii_of_string_of_list_ascii.
Qed.

(** C5: the Resolver returns an identifier exactly when the URL holds a token
    of the pattern, and fails with InvalidReferenceError, and with nothing
    else, exactly when no token matches; the identifier returned is a token
    embedded in the URL, and is the token when the URL holds just one; the
    URL of the first scenario resolves to 123456789. *)
Theorem resolve_spec :
  (∀ (url : string) (id : ProductId),
     resolve url = inr id →
     embeds_whole (String.list_ascii_of_string url)
                  (String.list_ascii_of_string id)) ∧
  (∀ (url : string) (token : list ascii),
     embeds (String.list_ascii_of_string url) token →
     ∃ id : ProductId, resolve url = inr id) ∧
  (∀ (url : string) (token : list ascii),
     embeds_whole (String.list_ascii_of_string url) token →
     (∀ token', embeds_whole (String.list_ascii_of_string url) token' →
                token' = token) →
     resolve url = inr (String.string_of_list_ascii token)) ∧
  (∀ url : string,
     resolve url = inl InvalidReferenceError ↔
     ¬ ∃ token, embeds (String.list_ascii_of_string url) token) ∧
  (∀ (url : string) (e : pipeline_error),
     resolve url = inl e → e = InvalidReferenceError) ∧
  resolve "https://www.daraz.pk/products/item-i123456789.html"
  = inr "123456789".
Proof.
  assert (Hsound : ∀ (url : string) (id : ProductId),
    resolve url = inr id →
    embeds_whole (String.list_ascii_of_string url)
                 (String.list_ascii_of_string id)).
  { intros url id Hres. apply resolve_Some in Hres.
    apply scan_token_sound in Hres; [|constructor]. exact Hres. }
  assert (Hcomplete : ∀ (url : string) (token : list ascii),
    embeds (String.list_ascii_of_string url) token →
    ∃ id : ProductId, resolve url = inr id).
  { intros url token Hemb. unfold resolve.
    destruct (scan_token_complete (String.list_ascii_of_string url) [])
      as [t ->]; [right; by exists token|]. by eexists. }
  split; [exact Hsound|]. split; [exact Hcomplete|]. split; [|split; [|split]].
  - intros url token Hwhole Huniq.
    destruct (Hcomplete url token) as [id Hid].
    { destruct Hwhole as (pre & post & Heq & Hne & Hdig & _).
      by exists pre, post. }
    rewrite Hid. f_equal.
    rewrite <- (Huniq _ (Hsound _ _ Hid)).
    by rewrite String.string_of_list_ascii_of_string.
  - intros url. split.
    + intros Herr [token Hemb].
      destruct (Hcomplete url token Hemb) as [id Hid]. congruence.
    + intros Hnone. unfold resolve.
      destruct (scan_token [] _) as [token|] eqn:Hscan; [|reflexivity].
      exfalso. apply Hnone. exists token.
      apply scan_token_sound in Hscan as (pre & post & Heq & Hne & Hdig & _);
        [|constructor].
      by exists pre, post.
  - intros url e. unfold resolve. destruct (scan_token _ _); congruence.
  - reflexivity.
Qed.

Lemma resolve_spec_witness :
  resolve "https://www.daraz.pk/products/item-i123456789.html"
  = inr "123456789".
Proof.
  exact (proj2 (proj2 (proj2 (proj2 (proj2 resolve_spec))))).
Defined.

(** *** Review Source Client *)

Section ClientFacts.
Context {upstream : Type}.
Variable call : upstream → ProductId → nat → upstream * response.
Variable product : ProductId.
Variable max_pages : nat.

Local Open Scope nat_scope.

Lemma fetch_page_calls (u : upstream) (page : nat) :
  ∃ u' r n, fetch_page call product u page = (u', r, n) ∧ 1 ≤ n ≤ 2.
Proof.
  unfold fetch_page. destruct (call u product page) as [u1 [|entries more]].
  - destruct (call u1 product page) as [u2 r2]. exists u2, r2, 2. split; [done|lia].
  - exists u1, (Page entries more), 1. split; [done|lia].
Qed.

(** One turn either ends within the bounds or moves the cursor one page
    further. *)
Lemma turn_progress (st : @cursor_state upstream) :
  within_cap max_pages st →
  match turn call product max_pages st with
  | inr r => bounded max_pages r
  | inl st' => within_cap max_pages st' ∧ next_page st' = S (next_page st)
               ∧ next_page st ≤ max_pages
  end.
Proof.
  intros [[Hlo Hhi] Hcalls]. unfold turn.
  destruct (Nat.ltb_spec max_pages (next_page st)) as [Hcap|Hcap].
  { unfold bounded, finish; simpl. lia. }
  destruct (fetch_page_calls (source st) (next_page st))
    as (u & r & n & -> & Hn).
  destruct r as [|[|e entries] more].
  - destruct (next_page st =? 1); unfold bounded, finish; simpl; lia.
  - unfold bounded, finish; simpl; lia.
  - destruct more.
    + unfold within_cap; simpl. lia.
    + unfold bounded, finish; simpl; lia.
Qed.

Lemma paginate_terminates (n : nat) :
  ∀ st : @cursor_state upstream,
    within_cap max_pages st → S max_pages - next_page st ≤ n →
    ∃ r : retrieval,
      (∀ fuel, n < fuel → paginate call product max_pages fuel st = Some r)
      ∧ bounded max_pages r.
Proof.
  induction n as [|n IH]; intros st Hinv Hmeasure;
    pose proof (turn_progress st Hinv) as Hturn;
    destruct (turn call product max_pages st) as [st'|r] eqn:Hstep.
  - destruct Hinv as [[? ?] ?]. lia.
  - exists r. split; [|exact Hturn].
    intros [|fuel] Hfuel; [lia|]. simpl. by rewrite Hstep.
  - destruct Hturn as (Hinv' & Hnext & Hle).
    destruct (IH st' Hinv') as (r & Hrun & Hr); [lia|].
    exists r. split; [|exact Hr].
    intros [|fuel] Hfuel; [lia|]. simpl. rewrite Hstep. apply Hrun. lia.
  - exists r. split; [|exact Hturn].
    intros [|fuel] Hfuel; [lia|]. simpl. by rewrite Hstep.
Qed.
End ClientFacts.

(** C6: whatever the upstream answers, also when every answer says that more
    pages exist, the pagination ends: with more turns allowed than the cap
    it returns a result, the same for every such allowance, having asked for
    no more pages than the cap and made no more than two calls per page. *)
Theorem fetch_reviews_terminates {upstream : Type}
    (call : upstream → ProductId → nat → upstream * response)
    (product : ProductId) (max_pages : nat) (u : upstream) :
  ∃ r : retrieval,
    (∀ fuel : nat, (max_pages < fuel)%nat →
       fetch_reviews call product max_pages fuel u = Some r) ∧
    (pages_requested r ≤ max_pages)%nat ∧
    (calls_made r ≤ 2 * max_pages)%nat.
Proof.
  destruct (paginate_terminates call product max_pages max_pages
              {| next_page := 1; collected := []; source := u; calls := 0 |})
    as (r & Hrun & Hpages & Hcalls).
  - unfold within_cap; simpl. lia.
  - simpl. lia.
  - exists r. split; [exact Hrun|]. split; [exact Hpages|]. lia.
Qed.

(** An upstream that answers every call with one review and "more pages
    available" is cut off by the cap. *)
Example fetch_reviews_endless :
  fetch_reviews
    (λ (u : unit) (_ : ProductId) (_ : nat),
       (u, Page [{| raw_text := Some "good"; raw_rating := None |}] true))
    "123456789" 3 4 ()
  = Some {| outcome :=
              Retrieved [{| text := "good"; stars := 0%Qc |};
                         {| text := "good"; stars := 0%Qc |};
                         {| text := "good"; stars := 0%Qc |}] false;
            pages_requested := 3; calls_made := 3 |}.
Proof. reflexivity. Qed.

(** Scenario 5 of the spec: pages of five reviews, five reviews and none
    give ten reviews, and the loop stops after the empty page. *)
Example fetch_reviews_three_pages :
  fetch_reviews
    (λ (u : unit) (_ : ProductId) (page : nat),
       (u, if (page <? 3)%nat
           then Page (replicate 5 {| raw_text := Some "good"; raw_rating := None |}) true
           else Page [] true))
    "123456789" 10 11 ()
  = Some {| outcome :=
              Retrieved (replicate 10 {| text := "good"; stars := 0%Qc |}) false;
            pages_requested := 3; calls_made := 3 |}.
Proof. reflexivity. Qed.

(** *** Persistence Sink *)

Section SinkFacts.
Variable append_ok : nat → bool.

Local Open Scope nat_scope.

(** When the first write to fail is the one at offset [j] of the batch, the
    sheet has grown by exactly the rows before it. *)
Lemma append_rows_first_failure (batch : list Review) :
  ∀ (k0 : nat) (sheet : list row) (j : nat),
    j < length batch →
    (∀ i, i < j → append_ok (k0 + i) = true) →
    append_ok (k0 + j) = false →
    append_rows append_ok k0 sheet batch
    = (sheet ++ map to_row (take j batch), Some (k0 + j)).
Proof.
  induction batch as [|r rest IH]; intros k0 sheet j Hj Hbefore Hfail;
    simpl in Hj; [lia|].
  destruct j as [|j]; simpl.
  - rewrite Nat.add_0_r in Hfail. rewrite Hfail.
    by rewrite app_nil_r, Nat.add_0_r.
  - rewrite <- (Nat.add_0_r k0), (Hbefore 0) by lia.
    rewrite (IH (S (k0 + 0)) (sheet ++ [to_row r]) j).
    + rewrite <- app_assoc. simpl. do 2 f_equal. lia.
    + lia.
    + intros i Hi. replace (S (k0 + 0) + i) with (k0 + S i) by lia.
      apply Hbefore. lia.
    + replace (S (k0 + 0) + j) with (k0 + S j) by lia. exact Hfail.
Qed.
End SinkFacts.

(** C7: when, of a batch of N reviews, the write of row k is the one that
    fails, the sheet keeps the rows 1 to k-1 written before it, the failure
    is reported, and the result handed back still holds all N reviews. *)
Theorem partial_write_keeps_rows_and_data
    (append_ok : nat → bool) (locator : string) (sheet : list row)
    (scored : list Review) (k : nat) :
  (1 ≤ k ≤ length scored)%nat →
  (∀ j : nat, (1 ≤ j < k)%nat → append_ok j = true) →
  append_ok k = false →
  (persist_and_respond append_ok locator sheet scored).1
  = sheet ++ map to_row (take (k - 1) scored) ∧
  reviews (persist_and_respond append_ok locator sheet scored).2 = scored ∧
  length (reviews (persist_and_respond append_ok locator sheet scored).2)
  = length scored ∧
  warnings (persist_and_respond append_ok locator sheet scored).2
  = [PersistenceError].
Proof.
  intros Hk Hbefore Hfail. unfold persist_and_respond.
  rewrite (append_rows_first_failure append_ok scored 1 sheet (k - 1)).
  - repeat split.
  - lia.
  - intros i Hi. apply Hbefore. lia.
  - replace (1 + (k - 1))%nat with k by lia. exact Hfail.
Qed.

Lemma partial_write_keeps_rows_and_data_witness :
  (persist_and_respond (λ j, (j <? 3)%nat) "https://docs.google.com/spreadsheets/d/1AbC" []
     [sample_scored "a"; sample_scored "b"; sample_scored "c"; sample_scored "d"]).1
  = [to_row (sample_scored "a"); to_row (sample_scored "b")] ∧
  reviews (persist_and_respond (λ j, (j <? 3)%nat) "https://docs.google.com/spreadsheets/d/1AbC" []
     [sample_scored "a"; sample_scored "b"; sample_scored "c"; sample_scored "d"]).2
  = [sample_scored "a"; sample_scored "b"; sample_scored "c"; sample_scored "d"].
Proof.
  assert (Hk : (1 ≤ 3 ≤ length
    [sample_scored "a"; sample_scored "b"; sample_scored "c"; sample_scored "d"])%nat)
    by (simpl; lia).
  assert (Hbefore : ∀ j : nat, (1 ≤ j < 3)%nat → (j <? 3)%nat = true)
    by (intros j Hj; apply Nat.ltb_lt; lia).
  pose proof (partial_write_keeps_rows_and_data (λ j, (j <? 3)%nat)
    "https://docs.google.com/spreadsheets/d/1AbC" []
    [sample_scored "a"; sample_scored "b"; sample_scored "c"; sample_scored "d"]
    3 Hk Hbefore eq_refl) as (Hsheet & Hdata & _).
  split; [exact Hsheet | exact Hdata].
Defined.

End BackendFacts.

(** ** Properties of the counts beyond the three labels, of the chart data
    and of what the page shows *)

Module ViewFacts.
Import Frontend FrontendView FrontendFacts.

(** *** Counts under any key *)

Lemma fold_count_review_any (k : string) (reviews : list Review) :
  ∀ acc : gmap string Z,
    fold_left count_review reviews acc !! k =
    if decide (matching k reviews = 0%nat) then acc !! k
    else Some (or_zero (acc !! k) + Z.of_nat (matching k reviews)).
Proof.
  induction reviews as [|r rs IH]; intros acc; [reflexivity|].
  simpl fold_left. rewrite IH, matching_cons.
  destruct (decide (sentiment_label r = k)) as [Heq|Hne].
  - assert (Hk : count_review acc r !! k = Some (or_zero (acc !! k) + 1)).
    { unfold count_review. rewrite Heq. apply lookup_insert_eq. }
    rewrite Hk, or_zero_Some.
    destruct (decide (matching k rs = 0%nat)) as [Hz|Hz];
      rewrite decide_False by lia; f_equal; lia.
  - assert (Hk : count_review acc r !! k = acc !! k).
    { unfold count_review. by rewrite lookup_insert_ne. }
    rewrite Hk. reflexivity.
Qed.

Lemma sentimentCounts_lookup_any (k : string) (reviews : list Review) :
  sentimentCounts reviews !! k =
  if decide (matching k reviews = 0%nat) then zero_counts !! k
  else Some (or_zero (zero_counts !! k) + Z.of_nat (matching k reviews)).
Proof.
  unfold sentimentCounts.
  destruct (decide (length reviews = 0%nat)) as [Hlen|Hlen].
  - destruct reviews; [reflexivity|discriminate].
  - apply fold_count_review_any.
Qed.

Lemma zero_counts_other (k : string) :
  k ∉ Frontend.labels → zero_counts !! k = None.
Proof.
  unfold Frontend.labels. rewrite !not_elem_of_cons. intros (H1 & H2 & H3 & _).
  unfold zero_counts. by rewrite !lookup_insert_ne, lookup_empty.
Qed.

Lemma matching_app (k : string) (l1 l2 : list Review) :
  matching k (l1 ++ l2) = (matching k l1 + matching k l2)%nat.
Proof. unfold matching. by rewrite filter_app, length_app. Qed.

Lemma matching_recognised (reviews : list Review) :
  (matching "Positive" reviews + matching "Negative" reviews
   + matching "Neutral" reviews = length (filter is_Review reviews))%nat.
Proof.
  induction reviews as [|r rs IH]; [reflexivity|].
  rewrite !matching_cons, filter_cons.
  destruct (decide (is_Review r)) as [Hr|Hr];
    unfold is_Review, Frontend.labels in Hr.
  - rewrite !elem_of_cons, elem_of_nil in Hr. simpl length.
    destruct Hr as [Hr|[Hr|[Hr|[]]]]; rewrite Hr;
      repeat case_decide; try congruence; lia.
  - rewrite !not_elem_of_cons in Hr. destruct Hr as (H1 & H2 & H3 & _).
    rewrite !decide_False by assumption. exact IH.
Qed.

(** X1: the three counts add up to the number of reviews whose label is one
    of the three; a review with any other label is in none of them. *)
Theorem sentimentCounts_recognised (reviews : list Review) :
  ∃ p n u : Z,
    sentimentCounts reviews !! "Positive" = Some p ∧
    sentimentCounts reviews !! "Negative" = Some n ∧
    sentimentCounts reviews !! "Neutral" = Some u ∧
    p + n + u = Z.of_nat (length (filter is_Review reviews)) ∧
    (p + n + u ≤ Z.of_nat (length reviews))%Z.
Proof.
  exists (Z.of_nat (matching "Positive" reviews)),
    (Z.of_nat (matching "Negative" reviews)),
    (Z.of_nat (matching "Neutral" reviews)).
  pose proof (matching_recognised reviews) as Hsum.
  pose proof (length_filter is_Review reviews) as Hle.
  repeat split;
    try (apply sentimentCounts_lookup; unfold Frontend.labels; set_solver);
    lia.
Qed.

(** X2: the counts do not depend on the order of the reviews. *)
Theorem sentimentCounts_permutation (reviews1 reviews2 : list Review) :
  reviews1 ≡ₚ reviews2 → sentimentCounts reviews1 = sentimentCounts reviews2.
Proof.
  intros Hperm. apply map_eq. intros k.
  rewrite !sentimentCounts_lookup_any.
  assert (Hm : matching k reviews1 = matching k reviews2)
    by (unfold matching; by rewrite Hperm).
  by rewrite Hm.
Qed.

Lemma sentimentCounts_permutation_witness :
  [sample_review "Positive"; sample_review "Neutral"]
  ≡ₚ [sample_review "Neutral"; sample_review "Positive"] ∧
  sentimentCounts [sample_review "Positive"; sample_review "Neutral"]
  = sentimentCounts [sample_review "Neutral"; sample_review "Positive"].
Proof.
  assert (H : [sample_review "Positive"; sample_review "Neutral"]
              ≡ₚ [sample_review "Neutral"; sample_review "Positive"])
    by apply Permutation_swap.
  split; [exact H | exact (sentimentCounts_permutation _ _ H)].
Defined.

(** X3: a label outside the three (and not a name inherited from
    [Object.prototype]) becomes a key of its own as soon as one review
    carries it, holding the number of such reviews; otherwise the key is
    absent. *)
Theorem sentimentCounts_other_key (k : string) (reviews : list Review) :
  k ∉ Frontend.labels → k ∉ prototype_names →
  sentimentCounts reviews !! k =
  if decide (matching k reviews = 0%nat) then None
  else Some (Z.of_nat (matching k reviews)).
Proof.
  intros Hk _. rewrite sentimentCounts_lookup_any, (zero_counts_other k Hk).
  case_decide; [reflexivity|]. f_equal.
Qed.

Lemma sentimentCounts_other_key_witness :
  sentimentCounts [sample_review "Mixed"; sample_review "Positive";
                   sample_review "Mixed"] !! "Mixed" = Some 2.
Proof.
  assert (H1 : "Mixed" ∉ Frontend.labels).
  { unfold Frontend.labels. rewrite !not_elem_of_cons.
    repeat split; [discriminate..|apply not_elem_of_nil]. }
  assert (H2 : "Mixed" ∉ prototype_names).
  { unfold prototype_names. rewrite !not_elem_of_cons.
    repeat split; [discriminate..|apply not_elem_of_nil]. }
  exact (sentimentCounts_other_key "Mixed"
           [sample_review "Mixed"; sample_review "Positive";
            sample_review "Mixed"] H1 H2).
Defined.

(** *** Cell style against counts *)

Lemma getSentimentStyle_other (label : string) :
  label ≠ "Positive" → label ≠ "Negative" →
  getSentimentStyle label = sentimentCellNeutral.
Proof.
  intros Hp Hn. unfold getSentimentStyle.
  apply String.eqb_neq in Hp, Hn. by rewrite Hp, Hn.
Qed.

(** X4: a review whose label is none of the three is shown in the table with
    the style of a Neutral cell, yet it is not counted under Neutral. *)
Theorem unknown_label_styled_not_counted (r : Review) (reviews : list Review) :
  sentiment_label r ∉ Frontend.labels →
  getSentimentStyle (sentiment_label r) = getSentimentStyle "Neutral" ∧
  sentimentCounts (reviews ++ [r]) !! "Neutral"
  = sentimentCounts reviews !! "Neutral".
Proof.
  unfold Frontend.labels. rewrite !not_elem_of_cons.
  intros (Hp & Hn & Hu & _). split.
  - by rewrite getSentimentStyle_other.
  - rewrite !sentimentCounts_lookup
      by (unfold Frontend.labels; set_solver).
    rewrite matching_app. unfold matching at 2. rewrite filter_cons.
    rewrite decide_False by assumption. simpl. do 2 f_equal. lia.
Qed.

Lemma unknown_label_styled_not_counted_witness :
  getSentimentStyle "Mixed" = getSentimentStyle "Neutral" ∧
  sentimentCounts ([sample_review "Neutral"] ++ [sample_review "Mixed"])
    !! "Neutral"
  = sentimentCounts [sample_review "Neutral"] !! "Neutral".
Proof.
  assert (H : sentiment_label (sample_review "Mixed") ∉ Frontend.labels).
  { unfold Frontend.labels. simpl. rewrite !not_elem_of_cons.
    repeat split; [discriminate..|apply not_elem_of_nil]. }
  exact (unknown_label_styled_not_counted (sample_review "Mixed")
           [sample_review "Neutral"] H).
Defined.

(** *** Chart data *)

Lemma total_app (l1 l2 : list Z) : total (l1 ++ l2) = total l1 + total l2.
Proof. unfold total. induction l1 as [|x l1 IH]; simpl; lia. Qed.

Lemma obj_replace_total (k : string) (v v' : Z) (o : list (string * Z)) :
  obj_get o k = Some v →
  total (map snd (obj_replace k v' o)) = total (map snd o) - v + v'.
Proof.
  induction o as [|[k0 v0] o IH]; simpl; [discriminate|].
  destruct (String.eqb k0 k).
  - intros [= ->]. unfold total. simpl. lia.
  - intros Hget. specialize (IH Hget). unfold total in *. simpl. lia.
Qed.

Lemma obj_add_index_total (n : N) (k : string) (v : Z) (o : list (string * Z)) :
  total (map snd (obj_add_index n k v o)) = total (map snd o) + v.
Proof.
  induction o as [|[k0 v0] o IH]; simpl; [unfold total; simpl; lia|].
  destruct (array_index k0) as [n0|].
  - destruct (n <? n0)%N; unfold total in *; simpl; lia.
  - unfold total; simpl; lia.
Qed.

(** Each review adds one to the total of the values, whichever key it goes
    under. *)
Lemma count_entry_total (acc : list (string * Z)) (r : Review) :
  total (map snd (count_entry acc r)) = total (map snd acc) + 1.
Proof.
  unfold count_entry, obj_set.
  destruct (obj_get acc (sentiment_label r)) as [v|] eqn:Hget.
  - rewrite (obj_replace_total _ v) by assumption.
    rewrite or_zero_Some. lia.
  - destruct (array_index (sentiment_label r)) as [n|].
    + rewrite obj_add_index_total. simpl. lia.
    + rewrite map_app, total_app. unfold total. simpl. lia.
Qed.

Lemma fold_count_entry_total (reviews : list Review) :
  ∀ acc : list (string * Z),
    total (map snd (fold_left count_entry reviews acc))
    = total (map snd acc) + Z.of_nat (length reviews).
Proof.
  induction reviews as [|r rs IH]; intros acc; simpl fold_left.
  - simpl. lia.
  - rewrite IH, count_entry_total. simpl length. lia.
Qed.

(** X5: whatever labels the reviews carry (names inherited from
    [Object.prototype] apart), the chart has as many labels as values and
    the values add up to the number of reviews. *)
Theorem chartData_total (reviews : list Review) :
  Forall (λ r, sentiment_label r ∉ prototype_names) reviews →
  length (labels (chartData reviews)) = length (data (chartData reviews)) ∧
  foldr Z.add 0 (data (chartData reviews)) = Z.of_nat (length reviews).
Proof.
  intros _. split; [simpl; by rewrite !length_map|].
  change (total (map snd (sentimentCounts_entries reviews))
          = Z.of_nat (length reviews)).
  unfold sentimentCounts_entries.
  destruct (decide (length reviews = 0%nat)) as [Hlen|Hlen].
  - rewrite Hlen. reflexivity.
  - rewrite fold_count_entry_total. unfold total. simpl. lia.
Qed.

Lemma chartData_total_witness :
  foldr Z.add 0
    (data (chartData [sample_review "Mixed"; sample_review "Positive";
                      sample_review "Mixed"])) = 3.
Proof.
  assert (H : Forall (λ r, sentiment_label r ∉ prototype_names)
    [sample_review "Mixed"; sample_review "Positive"; sample_review "Mixed"]).
  { repeat constructor; unfold prototype_names; simpl;
      rewrite !not_elem_of_cons;
      (repeat split; [discriminate..|apply not_elem_of_nil]). }
  exact (proj2 (chartData_total _ H)).
Defined.

(** On reviews of the data model the three entries keep their place. *)
Lemma fold_count_entry_Review (reviews : list Review) :
  Forall is_Review reviews →
  ∀ p n u : Z,
    fold_left count_entry reviews
      [("Positive", p); ("Negative", n); ("Neutral", u)]
    = [("Positive", p + Z.of_nat (matching "Positive" reviews));
       ("Negative", n + Z.of_nat (matching "Negative" reviews));
       ("Neutral", u + Z.of_nat (matching "Neutral" reviews))].
Proof.
  induction 1 as [|r rs Hr _ IH]; intros p n u.
  - simpl. unfold matching. simpl. by rewrite !Z.add_0_r.
  - simpl fold_left. unfold is_Review, Frontend.labels in Hr.
    rewrite !elem_of_cons, elem_of_nil in Hr.
    rewrite !matching_cons. unfold count_entry.
    destruct Hr as [Hr|[Hr|[Hr|[]]]]; rewrite Hr.
    + change (obj_get [("Positive", p); ("Negative", n); ("Neutral", u)]
                "Positive") with (Some p).
      rewrite or_zero_Some.
      change (obj_set "Positive" (p + 1)
                [("Positive", p); ("Negative", n); ("Neutral", u)])
        with [("Positive", p + 1); ("Negative", n); ("Neutral", u)].
      rewrite IH. repeat case_decide; try congruence.
      repeat first [lia | progress f_equal].
    + change (obj_get [("Positive", p); ("Negative", n); ("Neutral", u)]
                "Negative") with (Some n).
      rewrite or_zero_Some.
      change (obj_set "Negative" (n + 1)
                [("Positive", p); ("Negative", n); ("Neutral", u)])
        with [("Positive", p); ("Negative", n + 1); ("Neutral", u)].
      rewrite IH. repeat case_decide; try congruence.
      repeat first [lia | progress f_equal].
    + change (obj_get [("Positive", p); ("Negative", n); ("Neutral", u)]
                "Neutral") with (Some u).
      rewrite or_zero_Some.
      change (obj_set "Neutral" (u + 1)
                [("Positive", p); ("Negative", n); ("Neutral", u)])
        with [("Positive", p); ("Negative", n); ("Neutral", u + 1)].
      rewrite IH. repeat case_decide; try congruence.
      repeat first [lia | progress f_equal].
Qed.

(** X6: for reviews of the data model the chart lists Positive, Negative,
    Neutral in this order, one value per configured colour, and each value
    is the count that [sentimentCounts] holds under that label. *)
Theorem chartData_Review (reviews : list Review) :
  Forall is_Review reviews →
  labels (chartData reviews) = ["Positive"; "Negative"; "Neutral"] ∧
  map Some (data (chartData reviews))
  = map (λ k, sentimentCounts reviews !! k) (labels (chartData reviews)) ∧
  length (data (chartData reviews))
  = length (backgroundColor (chartData reviews)) ∧
  length (data (chartData reviews))
  = length (borderColor (chartData reviews)).
Proof.
  intros Hall.
  assert (Hentries : sentimentCounts_entries reviews
    = [("Positive", Z.of_nat (matching "Positive" reviews));
       ("Negative", Z.of_nat (matching "Negative" reviews));
       ("Neutral", Z.of_nat (matching "Neutral" reviews))]).
  { unfold sentimentCounts_entries.
    destruct (decide (length reviews = 0%nat)) as [Hlen|Hlen].
    - destruct reviews; [reflexivity|discriminate].
    - by rewrite (fold_count_entry_Review reviews Hall 0 0 0). }
  unfold chartData. simpl. rewrite Hentries. simpl.
  rewrite !sentimentCounts_lookup by (unfold Frontend.labels; set_solver).
  repeat split.
Qed.

Lemma chartData_Review_witness :
  labels (chartData [sample_review "Neutral"; sample_review "Positive"])
  = ["Positive"; "Negative"; "Neutral"].
Proof.
  assert (H : Forall is_Review
    [sample_review "Neutral"; sample_review "Positive"]).
  { apply (bool_decide_unpack _). vm_compute. exact I. }
  exact (proj1 (chartData_Review _ H)).
Defined.

(** *** The blank-URL guard *)

Lemma trimStart_all (s : list code_unit) :
  Forall (λ c, is_white_space c = true) s → trimStart s = [].
Proof. induction 1 as [|c s Hc _ IH]; simpl; [done|by rewrite Hc]. Qed.

Lemma trimStart_cases (s : list code_unit) :
  (trimStart s = [] ∧ Forall (λ c, is_white_space c = true) s) ∨
  (∃ c rest, trimStart s = c :: rest ∧ is_white_space c = false).
Proof.
  induction s as [|c s IH]; simpl; [by left|].
  destruct (is_white_space c) eqn:Hc; [|right; eauto].
  destruct IH as [[Hnil Hall]|Hcons]; [left|by right].
  split; [done|by constructor].
Qed.

Lemma trim_blank (s : list code_unit) :
  trim s = [] ↔ Forall (λ c, is_white_space c = true) s.
Proof.
  unfold trim, trimEnd. split.
  - intros Hnil.
    assert (Hrev : trimStart (rev (trimStart s)) = []).
    { apply (f_equal (@rev _)) in Hnil. by rewrite rev_involutive in Hnil. }
    destruct (trimStart_cases (rev (trimStart s))) as [[_ Hall]|(c & t & Hc & _)];
      [|congruence].
    destruct (trimStart_cases s) as [[_ Hs]|(c & t & Hc & Hws)]; [done|].
    rewrite Hc in Hall. apply Forall_rev in Hall.
    rewrite rev_involutive in Hall. apply Forall_cons in Hall as [Hc' _].
    congruence.
  - intros Hall. by rewrite (trimStart_all s Hall).
Qed.

(** X7: a request is issued exactly when the URL has a character that is not
    white space; a URL of white space only, or an empty one, never reaches
    the backend. *)
Theorem handleScrape_request_iff (o : fetch_outcome) (s : state) :
  at_request (handleScrape o s) = None ↔
  Forall (λ c, is_white_space c = true) (productUrl s).
Proof.
  rewrite <- trim_blank. unfold handleScrape.
  destruct (trim (productUrl s)); simpl; split; congruence.
Qed.

(** *** What is on the page after an invocation *)

Lemma handleScrape_final (o : fetch_outcome) (s : state) :
  trim (productUrl s) ≠ [] →
  final (handleScrape o s) =
  setIsLoading false
    match try_block o {| productUrl := productUrl s; reviews := [];
                         isLoading := true; error := None; sheetUrl := "" |} with
    | inr s' => s'
    | inl e =>
        {| productUrl := productUrl s; reviews := []; isLoading := true;
           error := Some (or_else (message e) "An unexpected error occurred.");
           sheetUrl := "" |}
    end.
Proof.
  intros Hurl. unfold handleScrape.
  destruct (trim (productUrl s)); [congruence|]. reflexivity.
Qed.

Ltac scrape_cases o :=
  destruct o as [[[[|? ?]|]]|[[[|? ?]|]]
                |[|] ? [[[[|? ?]|]]
                       |[[[|? ?]|[|] [[[[|? ?]|]]|[|? ?]]]|]
                        [[|? ?]|] [[|? ?]|]]];
  simpl.

(** X8: for a URL that is not blank, what the page shows after the
    invocation depends on the response alone, not on what was shown
    before. *)
Theorem handleScrape_forgets_history (o : fetch_outcome) (s s' : state) :
  productUrl s = productUrl s' →
  trim (productUrl s) ≠ [] →
  handleScrape o s = handleScrape o s'.
Proof.
  intros Heq Hurl. unfold handleScrape. rewrite <- Heq.
  destruct (trim (productUrl s)); [congruence|]. simpl.
  unfold setSheetUrl, setReviews, setError, setIsLoading. simpl.
  by rewrite <- Heq.
Qed.

Lemma handleScrape_forgets_history_witness :
  handleScrape network_failure
    (showing_reviews "https://www.daraz.pk/products/item-i123456789.html")
  = handleScrape network_failure
      (fresh_page "https://www.daraz.pk/products/item-i123456789.html").
Proof.
  assert (H : trim (productUrl
    (showing_reviews "https://www.daraz.pk/products/item-i123456789.html")) ≠ []).
  { vm_compute. discriminate. }
  exact (handleScrape_forgets_history network_failure
    (showing_reviews "https://www.daraz.pk/products/item-i123456789.html")
    (fresh_page "https://www.daraz.pk/products/item-i123456789.html")
    eq_refl H).
Defined.

(** X9: after an invocation with a URL that is not blank the page shows
    either the results or an error message, never both and never
    neither, and the loader is gone. *)
Theorem results_or_error (o : fetch_outcome) (s : state) :
  trim (productUrl s) ≠ [] →
  (is_Some (results (render (final (handleScrape o s)))) ↔
   error_banner (render (final (handleScrape o s))) = None) ∧
  loader (render (final (handleScrape o s))) = false.
Proof.
  intros Hurl. rewrite (handleScrape_final o s Hurl).
  scrape_cases o; (split; [|reflexivity]);
    (split; [intros [? Hsome] | intros Hnone]);
    first [discriminate | reflexivity | by eexists].
Qed.

Lemma results_or_error_witness :
  loader (render (final (handleScrape network_failure
    (showing_reviews "https://www.daraz.pk/products/item-i123456789.html"))))
  = false.
Proof.
  assert (H : trim (productUrl
    (showing_reviews "https://www.daraz.pk/products/item-i123456789.html")) ≠ []).
  { vm_compute. discriminate. }
  exact (proj2 (results_or_error network_failure _ H)).
Defined.

(** X10: the results are on the page after the invocation exactly when the
    response was ok with a non-empty [data] array, and then they are that
    array, in its order. *)
Theorem results_after_scrape (o : fetch_outcome) (s : state) :
  trim (productUrl s) ≠ [] →
  results (render (final (handleScrape o s))) =
  match o with
  | Response true _ (BodyObject _ (Some (r :: rs)) _) => Some (r :: rs)
  | _ => None
  end.
Proof.
  intros Hurl. rewrite (handleScrape_final o s Hurl).
  scrape_cases o; reflexivity.
Qed.

Lemma results_after_scrape_witness :
  results (render (final (handleScrape
    (Response true 200 (BodyObject None
       (Some [sample_review "Positive"; sample_review "Mixed"]) None))
    (fresh_page "https://www.daraz.pk/products/item-i123456789.html"))))
  = Some [sample_review "Positive"; sample_review "Mixed"].
Proof.
  assert (H : trim (productUrl
    (fresh_page "https://www.daraz.pk/products/item-i123456789.html")) ≠ []).
  { vm_compute. discriminate. }
  exact (results_after_scrape
    (Response true 200 (BodyObject None
       (Some [sample_review "Positive"; sample_review "Mixed"]) None))
    _ H).
Defined.

(** X11: the sheet link is on the page after the invocation exactly when
    the response was ok and carried a non-empty [sheet_url], whether or not
    it carried any review. *)
Theorem sheet_link_after_scrape (o : fetch_outcome) (s : state) :
  trim (productUrl s) ≠ [] →
  sheet_link (render (final (handleScrape o s))) =
  match o with
  | Response true _ (BodyObject _ _ (Some (String c u))) => Some (String c u)
  | _ => None
  end.
Proof.
  intros Hurl. rewrite (handleScrape_final o s Hurl).
  scrape_cases o; reflexivity.
Qed.

Lemma sheet_link_after_scrape_witness :
  sheet_link (render (final (handleScrape
    (Response true 200 (BodyObject None (Some []) (Some "https://docs.google.com/spreadsheets/d/1AbC")))
    (fresh_page "https://www.daraz.pk/products/item-i123456789.html"))))
  = Some "https://docs.google.com/spreadsheets/d/1AbC".
Proof.
  assert (H : trim (productUrl
    (fresh_page "https://www.daraz.pk/products/item-i123456789.html")) ≠ []).
  { vm_compute. discriminate. }
  exact (sheet_link_after_scrape
    (Response true 200 (BodyObject None (Some []) (Some "https://docs.google.com/spreadsheets/d/1AbC")))
    _ H).
Defined.

(** X12: whatever the URL and the response, the hint "No reviews to
    display" is not on the page after an invocation: an empty result always
    comes with an error message. *)
Theorem no_hint_after_scrape (o : fetch_outcome) (s : state) :
  no_reviews_hint (render (final (handleScrape o s))) = false.
Proof.
  destruct (trim (productUrl s)) as [|c t] eqn:Hurl.
  - rewrite handleScrape_blank by assumption. simpl.
    by rewrite andb_false_r.
  - assert (Hne : trim (productUrl s) ≠ []) by congruence.
    rewrite (handleScrape_final o s Hne).
    scrape_cases o; reflexivity.
Qed.

(** X13: while the request is in flight the page shows the loader and a
    disabled button, and nothing else: no results, no sheet link, no error,
    no hint. *)
Theorem view_in_flight (o : fetch_outcome) (s : state) :
  trim (productUrl s) ≠ [] →
  render <$> at_request (handleScrape o s) =
  Some {| button_disabled := true; button_text := "Scraping...";
          loader := true; error_banner := None; sheet_link := None;
          results := None; no_reviews_hint := false |}.
Proof. intros Hurl. by rewrite handleScrape_request. Qed.

Lemma view_in_flight_witness :
  render <$> at_request (handleScrape network_failure
    (showing_reviews "https://www.daraz.pk/products/item-i123456789.html")) =
  Some {| button_disabled := true; button_text := "Scraping...";
          loader := true; error_banner := None; sheet_link := None;
          results := None; no_reviews_hint := false |}.
Proof.
  assert (H : trim (productUrl
    (showing_reviews "https://www.daraz.pk/products/item-i123456789.html")) ≠ []).
  { vm_compute. discriminate. }
  exact (view_in_flight network_failure _ H).
Defined.

(** X14: after a response that is not ok the error shown is never empty.
    It is [detail] itself when that is a non-empty string,
    "HTTP error! Status: " followed by the status code when [detail] is
    absent or falsy, and for any other truthy [detail] its conversion to a
    string, so that the array of objects of a validation error shows as
    "[object Object]"; the fallback of the [catch] block appears when that
    conversion is empty or fails without a message. *)
Theorem http_error_message (s : state) (status : N)
    (detail : option json_value) (sheet_url : option string)
    (data : option (list Review)) :
  trim (productUrl s) ≠ [] →
  error_banner (render (final (handleScrape
    (Response false status (BodyObject detail data sheet_url)) s)))
  = Some match detail with
         | Some (JString (String c d)) => String c d
         | Some (JOther true (inr (String c d))) => String c d
         | Some (JOther true (inr EmptyString)) =>
             "An unexpected error occurred."
         | Some (JOther true (inl e)) =>
             or_else (message e) "An unexpected error occurred."
         | _ => "HTTP error! Status: " +:+ pretty status
         end.
Proof.
  intros Hurl. rewrite (handleScrape_final _ s Hurl).
  destruct detail as [[[|c d]|[|] [[[[|c m]|]]|[|c d]]]|]; reflexivity.
Qed.

Lemma http_error_message_witness :
  error_banner (render (final (handleScrape
    (Response false 422 (BodyObject (Some validation_detail) None None))
    (fresh_page "https://www.daraz.pk/products/item-i123456789.html"))))
  = Some "[object Object]".
Proof.
  assert (H : trim (productUrl
    (fresh_page "https://www.daraz.pk/products/item-i123456789.html")) ≠ []).
  { vm_compute. discriminate. }
  exact (http_error_message _ 422 (Some validation_detail) None None H).
Defined.

(** *** Tooltip on the rendered charts *)

(** X15: the charts are rendered only with at least one review, so every
    tooltip percentage computed on them takes the division branch; the
    branch that yields 0 is never taken on a rendered chart. *)
Theorem percentage_on_rendered_chart {number : Type}
    (of_int : Z → number) (div mul : number → number → number)
    (toFixed : number → nat → string) (value : Z) (s : state) :
  is_Some (results (render s)) →
  percentage of_int div mul toFixed value (totalReviews s)
  = Some (PercentFixed
            (toFixed (mul (div (of_int value)
                               (of_int (Z.of_nat (totalReviews s))))
                          (of_int 100)) 1%nat)).
Proof.
  intros Hshown.
  assert (Hpos : totalReviews s ≠ 0%nat).
  { unfold totalReviews. intros Hz. unfold render in Hshown. simpl in Hshown.
    rewrite Hz in Hshown. simpl in Hshown. by destruct Hshown. }
  unfold percentage. destruct (totalReviews s) as [|n]; [congruence|].
  assert (Hlt : (0 <? Z.of_nat (S n))%Z = true) by (apply Z.ltb_lt; lia).
  rewrite Hlt. reflexivity.
Qed.

Lemma percentage_on_rendered_chart_witness :
  percentage (λ z : Z, z) Z.div Z.mul (λ (q : Z) (_ : nat), pretty q) 1
    (totalReviews (showing_reviews "https://www.daraz.pk/products/item-i123456789.html"))
  = Some (PercentFixed "0").
Proof.
  assert (H : is_Some (results (render
    (showing_reviews "https://www.daraz.pk/products/item-i123456789.html"))))
    by (by eexists).
  exact (percentage_on_rendered_chart (λ z : Z, z) Z.div Z.mul
           (λ (q : Z) (_ : nat), pretty q) 1 _ H).
Defined.

End ViewFacts.
